(** * simple_server.py: the fallback frontend server of the Jenkins Test Scheduler

    A shallow embedding of [src/simple_server.py]: the request handler
    [CustomHTTPRequestHandler] (its [end_headers], [do_GET],
    [handle_api_request] and [send_mock_socketio]), the server life cycle
    [start_server] and the command-line entry point.

    The program sits on top of Python's [http.server] and [socketserver].
    Those libraries are modelled only as far as the program drives them:
    a handler object with a path, a header buffer and an output stream, and
    the four methods through which a response reaches the stream. *)

From Stdlib Require Import ZArith List Bool Lia.
From Stdlib Require Import Strings.Ascii Strings.String Strings.Byte.
From Stdlib Require Import Numbers.DecimalString.
Import ListNotations.

Open Scope string_scope.
Open Scope Z_scope.

(** ** Python strings

    [self.path] is the request target decoded as latin-1, one character per
    octet, which is what [string] is.  The literals of the program are
    written between single quotes in the source and hold double quotes; here
    the double quote is the character [dq]. *)

Module Py.

Definition dq : string := String (ascii_of_nat 34) EmptyString.
Definition nl : string := String (ascii_of_nat 10) EmptyString.

(** [q s] is [s] between double quotes. *)
Definition q (s : string) : string := dq ++ s ++ dq.

(** [s.startswith(p)] *)
Definition startswith (s p : string) : bool := String.prefix p s.

(** [sub in s]: [sub] occurs in [s] at some position. *)
Fixpoint contains (sub s : string) : bool :=
  String.prefix sub s ||
  match s with
  | EmptyString => false
  | String _ s' => contains sub s'
  end.

(** [str.encode()] on text whose characters are all below 256. *)
Definition encode (s : string) : list byte := list_byte_of_string s.

(** [str(n)] and [f"{n}"] for an integer. *)
Definition str_of_int (n : Z) : string := NilZero.string_of_int (Z.to_int n).

End Py.

(** ** The handler object of [http.server]

    [BaseHTTPRequestHandler] collects the status line and the header lines of
    a response in [_headers_buffer]; [end_headers] closes the block and
    flushes it to [wfile]; the body is written to [wfile] directly.  The
    stream is kept as the sequence of chunks written to it.  Requests are
    HTTP/1.x, the only wire protocol the server is used with. *)

Module Http.

Inductive header_line : Type :=
| StatusLine (code : Z)
| HeaderLine (keyword value : string).

Inductive chunk : Type :=
| Head (block : list header_line)
| Data (bytes : list byte).

Record handler : Type := mkHandler {
  path : string;
  headers_buffer : list header_line;
  wfile : list chunk
}.

Definition set_path (p : string) (h : handler) : handler :=
  mkHandler p (headers_buffer h) (wfile h).

Definition buffer (l : header_line) (h : handler) : handler :=
  mkHandler (path h) (headers_buffer h ++ [l]) (wfile h).

(** [self.wfile.write(data)] *)
Definition write (data : list byte) (h : handler) : handler :=
  mkHandler (path h) (headers_buffer h) (wfile h ++ [Data data]).

(** A handler that has read the request line of a new request. *)
Definition request (p : string) : handler := mkHandler p [] [].

(** The calls a [do_GET] of the library makes on [self] to answer. *)
Inductive call : Type :=
| SendResponse (code : Z)
| SendHeader (keyword value : string)
| EndHeaders
| Write (data : list byte).

Section Base.

(** What [version_string()] and [date_time_string()] return. *)
Variables (version_string date_time_string : string).

Definition send_header (keyword value : string) (h : handler) : handler :=
  buffer (HeaderLine keyword value) h.

(** [send_response] buffers the status line, then the Server and Date
    headers. *)
Definition send_response (code : Z) (h : handler) : handler :=
  send_header "Date" date_time_string
    (send_header "Server" version_string
       (buffer (StatusLine code) h)).

(** [BaseHTTPRequestHandler.end_headers]: flush the buffered block. *)
Definition end_headers (h : handler) : handler :=
  mkHandler (path h) [] (wfile h ++ [Head (headers_buffer h)]).

(** Method calls on [self] are dispatched to the class of the object:
    [self_end_headers] is the [end_headers] of that class. *)
Definition perform (self_end_headers : handler -> handler)
    (c : call) (h : handler) : handler :=
  match c with
  | SendResponse code => send_response code h
  | SendHeader k v => send_header k v h
  | EndHeaders => self_end_headers h
  | Write data => write data h
  end.

Definition run (self_end_headers : handler -> handler)
    (cs : list call) (h : handler) : handler :=
  fold_left (fun h c => perform self_end_headers c h) cs h.

End Base.

(** *** Reading a response off the stream *)

Definition blocks (w : list chunk) : list (list header_line) :=
  flat_map (fun c => match c with Head b => [b] | Data _ => [] end) w.

Definition payload (w : list chunk) : list byte :=
  flat_map (fun c => match c with Head _ => [] | Data d => d end) w.

Definition status_of (b : list header_line) : option Z :=
  match b with
  | StatusLine code :: _ => Some code
  | _ => None
  end.

(** The values of the header [keyword] in a block, in order. *)
Definition values_of (keyword : string) (b : list header_line) : list string :=
  flat_map (fun l => match l with
                     | HeaderLine k v => if String.eqb k keyword then [v] else []
                     | StatusLine _ => []
                     end) b.

(** A stream that holds one response: its status, its header block and its
    body. *)
Record response : Type := mkResponse {
  status : Z;
  headers : list header_line;
  body : list byte
}.

Definition response_of (w : list chunk) : option response :=
  match w with
  | Head (StatusLine code :: hs) :: rest =>
      match blocks rest with
      | [] => Some (mkResponse code hs (payload rest))
      | _ :: _ => None
      end
  | _ => None
  end.

Definition header (keyword : string) (r : response) : list string :=
  values_of keyword (headers r).

(** The stream [w] holds exactly one response, with status [code], the one
    Content-type [ctype] and the body [b]. *)
Definition answers (w : list chunk) (code : Z) (ctype : string)
    (b : list byte) : Prop :=
  exists r, response_of w = Some r /\ status r = code /\
            header "Content-type" r = [ctype] /\ body r = b.

End Http.

(** ** [class CustomHTTPRequestHandler(http.server.SimpleHTTPRequestHandler)] *)

Module CustomHTTPRequestHandler.

Import Http.

Section Handler.

(** The library under the handler: the Server and Date header values, and
    what [SimpleHTTPRequestHandler.do_GET] does for a path when it serves the
    directory [public] (file found, directory listing, redirect, 404, ...):
    the calls it makes on [self]. *)
Variables (version_string date_time_string : string).
Variable super_do_GET : string -> list call.

Definition end_headers (h : handler) : handler :=
  let h := send_header "Cache-Control" "no-cache, no-store, must-revalidate" h in
  let h := send_header "Pragma" "no-cache" h in
  let h := send_header "Expires" "0" h in
  Http.end_headers h.

(** The [if]/[elif] chain that picks [mock_data]. *)
Definition mock_data (path : string) : string :=
  if Py.contains "/api/csv/sessions" path then
    "{" ++ Py.q "success" ++ ": true, " ++ Py.q "sessions" ++ ": []}"
  else if Py.contains "/api/hardware" path then
    "{" ++ Py.q "success" ++ ": true, " ++ Py.q "hardware" ++ ": {"
        ++ Py.q "debuggers" ++ ": [], " ++ Py.q "platforms" ++ ": []}}"
  else if Py.contains "/api/machines" path then
    "{" ++ Py.q "success" ++ ": true, " ++ Py.q "machines" ++ ": []}"
  else if Py.contains "/api/schedule" path then
    "{" ++ Py.q "success" ++ ": true, " ++ Py.q "schedule" ++ ": {"
        ++ Py.q "timeSlots" ++ ": [], " ++ Py.q "assignments" ++ ": []}}"
  else
    "{" ++ Py.q "success" ++ ": false, " ++ Py.q "error" ++ ": "
        ++ Py.q "Node.js backend not available" ++ "}".

Definition handle_api_request (h : handler) : handler :=
  let h := send_response version_string date_time_string 200 h in
  let h := send_header "Content-type" "application/json" h in
  let h := end_headers h in
  write (Py.encode (mock_data (path h))) h.

(** The triple-quoted literal of [send_mock_socketio], line by line: it
    opens with a line break and ends with the indentation of its closing
    quotes. *)
Definition mock_socketio : string :=
  String.concat Py.nl [
    "";
    "        window.io = function() {";
    "            return {";
    "                on: function(event, callback) {";
    "                    console.log(" ++ Py.q "Mock Socket.IO: Listening for" ++ ", event);";
    "                    if (event === 'connect') {";
    "                        setTimeout(() => callback(), 100);";
    "                    }";
    "                },";
    "                emit: function(event, data) {";
    "                    console.log(" ++ Py.q "Mock Socket.IO: Emitting" ++ ", event, data);";
    "                }";
    "            };";
    "        };";
    "        " ].

Definition send_mock_socketio (h : handler) : handler :=
  let h := send_response version_string date_time_string 200 h in
  let h := send_header "Content-type" "application/javascript" h in
  let h := end_headers h in
  write (Py.encode mock_socketio) h.

Definition do_GET (h : handler) : handler :=
  let h := if String.eqb (path h) "/" then set_path "/index.html" h else h in
  if Py.startswith (path h) "/api/" then handle_api_request h
  else if Py.startswith (path h) "/socket.io/" then send_mock_socketio h
  else run version_string date_time_string end_headers (super_do_GET (path h)) h.

(** What goes out on the wire for a GET of [p]. *)
Definition respond (p : string) : list chunk := wfile (do_GET (request p)).

End Handler.

End CustomHTTPRequestHandler.

(** ** The server life cycle and the command line

    [start_server] talks to the operating system: it binds a socket, prints,
    opens a browser and serves until an exception ends the loop.  A [world]
    fixes what the system answers; a run is the trace of the effects
    performed, with how the run ended.  Printed text is held as its UTF-8
    octets. *)

Module Server.

Inductive exception : Type :=
| OSError (errno : Z) (strerror : string)
| KeyboardInterrupt
| ValueError
| OtherError (name : string).

(** [str(e)] for an [OSError] built from an error number and its message. *)
Definition str_of_OSError (errno : Z) (strerror : string) : string :=
  "[Errno " ++ Py.str_of_int errno ++ "] " ++ strerror.

(** The number [errno.EADDRINUSE] stands for depends on the system. *)
Inductive platform : Type := Darwin | Linux.

Definition EADDRINUSE (os : platform) : Z :=
  match os with
  | Darwin => 48
  | Linux => 98
  end.

Inductive effect : Type :=
| Bind (port : Z)
| Print (text : string)
| BrowserOpen (url : string)
| ServeForever
| ServerClose.

Inductive outcome : Type :=
| Returned
| Raised (e : exception)
| Serving.

Record world : Type := mkWorld {
  (** [socketserver.TCPServer(("", port), ...)]: [None] when the socket is
      bound and listening, else the exception of the constructor. *)
  bind : Z -> option exception;
  (** [os.path.abspath('public')] *)
  abspath_public : string;
  (** what [webbrowser.open] raises, if it raises *)
  browser : option exception;
  (** [serve_forever] has no normal return here: it ends by an exception,
      or not at all ([None]). *)
  serve : option exception
}.

Definition execution : Type := (list effect * outcome)%type.

(** The [except] clauses of [start_server]. *)
Definition handle (port : Z) (e : exception) : execution :=
  match e with
  | OSError errno strerror =>
      if errno =? 48 then
        ([Print ("❌ Port " ++ Py.str_of_int port ++ " is already in use");
          Print "💡 Try a different port: python3 simple_server.py 3001"],
         Returned)
      else
        ([Print ("❌ Error starting server: " ++ str_of_OSError errno strerror)],
         Returned)
  | KeyboardInterrupt => ([Print (Py.nl ++ "👋 Server stopped")], Returned)
  | _ => ([], Raised e)
  end.

(** The body of the [with] statement up to the call of [serve_forever]. *)
Definition announce (port : Z) (w : world) : list effect :=
  [Print "🚀 Jenkins Test Scheduler (Frontend Only)";
   Print ("📁 Serving files from: " ++ abspath_public w);
   Print ("🌐 Server running at: http://localhost:" ++ Py.str_of_int port);
   Print "⚠️  Note: Backend functionality requires Node.js";
   Print "📖 See README.md for full setup instructions";
   Print (Py.nl ++ "🔗 Opening browser...");
   BrowserOpen ("http://localhost:" ++ Py.str_of_int port)]
  ++ match browser w with
     | Some _ => [Print "Could not open browser automatically"]
     | None => []
     end
  ++ [Print (Py.nl ++ "⏹️  Press Ctrl+C to stop the server");
      ServeForever].

Definition start_server (port : Z) (w : world) : execution :=
  match bind w port with
  | Some e =>
      let (out, o) := handle port e in (Bind port :: out, o)
  | None =>
      match serve w with
      | None => (Bind port :: announce port w, Serving)
      | Some e =>
          let (out, o) := handle port e in
          (Bind port :: announce port w ++ ServerClose :: out, o)
      end
  end.

Section CommandLine.

(** The builtin [int] applied to a string: the integer it reads, or [None]
    when it raises [ValueError].  Which strings it accepts is the
    interpreter's business; the program only calls it. *)
Variable int : string -> option Z.

(** [int(sys.argv[1]) if len(sys.argv) > 1 else 3000]; [None] is the
    [ValueError] of [int]. *)
Definition port_of_argv (argv : list string) : option Z :=
  if 1 <? Z.of_nat (List.length argv) then int (nth 1 argv "")
  else Some 3000.

(** The [if __name__ == "__main__":] block. *)
Definition main (argv : list string) (w : world) : execution :=
  match port_of_argv argv with
  | Some port => start_server port w
  | None => ([], Raised ValueError)
  end.

End CommandLine.

(** The lines written to standard output, in order. *)
Definition stdout (t : list effect) : list string :=
  flat_map (fun e => match e with Print s => [s] | _ => [] end) t.

(** The exit status of the interpreter: 0 when the script runs to its end,
    1 when an exception is left unhandled; none while the server runs. *)
Definition exit_status (o : outcome) : option Z :=
  match o with
  | Returned => Some 0
  | Raised _ => Some 1
  | Serving => None
  end.

End Server.

(** ** The contract of the interface

    The fixed bodies and headers as the interface description lists them, and
    the dispatch it describes: the first key of a table that occurs in the
    path selects the body.  These are the reference the handler is compared
    with. *)

Module Contract.

Definition sessions_json : string :=
  "{" ++ Py.q "success" ++ ": true, " ++ Py.q "sessions" ++ ": []}".

Definition hardware_json : string :=
  "{" ++ Py.q "success" ++ ": true, " ++ Py.q "hardware" ++ ": {"
      ++ Py.q "debuggers" ++ ": [], " ++ Py.q "platforms" ++ ": []}}".

Definition machines_json : string :=
  "{" ++ Py.q "success" ++ ": true, " ++ Py.q "machines" ++ ": []}".

Definition schedule_json : string :=
  "{" ++ Py.q "success" ++ ": true, " ++ Py.q "schedule" ++ ": {"
      ++ Py.q "timeSlots" ++ ": [], " ++ Py.q "assignments" ++ ": []}}".

Definition unavailable_json : string :=
  "{" ++ Py.q "success" ++ ": false, " ++ Py.q "error" ++ ": "
      ++ Py.q "Node.js backend not available" ++ "}".

Definition api_table : list (string * string) :=
  [("/api/csv/sessions", sessions_json);
   ("/api/hardware", hardware_json);
   ("/api/machines", machines_json);
   ("/api/schedule", schedule_json)].

Fixpoint first_match (table : list (string * string)) (default path : string)
    : string :=
  match table with
  | [] => default
  | (key, value) :: rest =>
      if Py.contains key path then value else first_match rest default path
  end.

Definition no_cache : list Http.header_line :=
  [Http.HeaderLine "Cache-Control" "no-cache, no-store, must-revalidate";
   Http.HeaderLine "Pragma" "no-cache";
   Http.HeaderLine "Expires" "0"].

(** [carries b]: the block [b] holds the three cache-disabling headers.  The
    invariant of the output stream is that every block flushed to it does. *)
Definition carries (b : list Http.header_line) : Prop := incl no_cache b.

Definition all_carry (h : Http.handler) : Prop :=
  Forall carries (Http.blocks (Http.wfile h)).

(** A chunk of the static server's output as the handler sends it: a header
    block with the cache headers at its end, a body chunk as it is. *)
Definition with_no_cache (c : Http.chunk) : Http.chunk :=
  match c with
  | Http.Head b => Http.Head (b ++ no_cache)
  | Http.Data d => Http.Data d
  end.

(** The header lines of a mock response, after the status line. *)
Definition mock_headers (version_string date_time_string ctype : string)
    : list Http.header_line :=
  [Http.HeaderLine "Server" version_string;
   Http.HeaderLine "Date" date_time_string;
   Http.HeaderLine "Content-type" ctype] ++ no_cache.

End Contract.

(** ** A sample environment

    A [public] directory without files: the static server answers every
    path with [send_error(404)], a header block of its own and a short
    body. *)

Module Sample.

Import Http.

Definition not_found (_ : string) : list call :=
  [SendResponse 404;
   SendHeader "Connection" "close";
   SendHeader "Content-Type" "text/html;charset=utf-8";
   EndHeaders;
   Write (Py.encode "File not found")].

Definition version : string := "SimpleHTTP/0.6 Python/3".
Definition date : string := "Thu, 01 Jan 1970 00:00:00 GMT".

(** A system on which bind fails for the ports in [busy] with the error
    number of address-in-use, and the operator presses Ctrl+C while the
    server runs. *)
Definition world_of (os : Server.platform) (busy : list Z) : Server.world :=
  Server.mkWorld
    (fun port =>
       if existsb (Z.eqb port) busy
       then Some (Server.OSError (Server.EADDRINUSE os) "Address already in use")
       else None)
    "/srv/app/public"
    None
    (Some Server.KeyboardInterrupt).

(** A system where the socket is bound, opening the browser is interrupted
    from the keyboard and the server then runs on. *)
Definition browser_interrupted : Server.world :=
  Server.mkWorld (fun _ => None) "/srv/app/public" (Some Server.KeyboardInterrupt) None.

(** A system where the constructor of the server rejects the port with an
    exception that is no [OSError]. *)
Definition port_rejected : Server.world :=
  Server.mkWorld (fun _ => Some (Server.OtherError "OverflowError")) "/srv/app/public"
    None None.

(** The builtin [int] of the sample runs, on the ASCII arguments they pass:
    base ten, white space (tab to carriage return, and the blank) dropped at
    both ends, one sign, then decimal digits, where a single underscore may
    stand between two digits; [None] for anything else.  The properties of
    the command line hold for every [int]; this one only serves to run the
    program on concrete arguments. *)

Definition isspace (a : ascii) : bool :=
  let n := nat_of_ascii a in
  (Nat.leb 9 n && Nat.leb n 13) || Nat.eqb n 32.

Definition digit_value (a : ascii) : option Z :=
  let n := nat_of_ascii a in
  if Nat.leb 48 n && Nat.leb n 57 then Some (Z.of_nat (n - 48)) else None.

Fixpoint lstrip (s : string) : string :=
  match s with
  | String a s' => if isspace a then lstrip s' else s
  | EmptyString => EmptyString
  end.

(** Digits up to the trailing white space; [after_digit] tells whether the
    previous character was a digit. *)
Fixpoint int_digits (acc : Z) (after_digit : bool) (s : string) : option Z :=
  match s with
  | EmptyString => if after_digit then Some acc else None
  | String a s' =>
      match digit_value a with
      | Some d => int_digits (10 * acc + d) true s'
      | None =>
          if Ascii.eqb a "_" then
            if after_digit then
              match s' with
              | String b _ =>
                  match digit_value b with
                  | Some _ => int_digits acc false s'
                  | None => None
                  end
              | EmptyString => None
              end
            else None
          else if isspace a then
            if after_digit then
              match lstrip s' with
              | EmptyString => Some acc
              | String _ _ => None
              end
            else None
          else None
      end
  end.

Definition int (s : string) : option Z :=
  match lstrip s with
  | String "+" s' => int_digits 0 false s'
  | String "-" s' => option_map Z.opp (int_digits 0 false s')
  | s' => int_digits 0 false s'
  end.

End Sample.

(** * Properties *)

(** ** Strings *)

Section StringFacts.

Import Py.

Lemma prefix_app (p s : string) :
  String.prefix p s = true <-> exists t, s = p ++ t.
Proof.
  revert s; induction p as [|a p IH]; intros s; simpl.
  - destruct s; simpl; split; eauto.
  - destruct s as [|b s]; simpl.
    + split; [discriminate | intros [t H]; discriminate].
    + destruct (ascii_dec a b) as [->|Hne].
      * rewrite IH; split; intros [t H]; exists t; congruence.
      * split; [discriminate | intros [t H]; congruence].
Qed.

(** [contains] is the substring relation. *)
Lemma contains_spec (sub s : string) :
  contains sub s = true <-> exists pre post, s = pre ++ sub ++ post.
Proof.
  induction s as [|a s IH]; cbn [contains].
  - rewrite orb_false_r, prefix_app; split.
    + intros [t H]; exists "", t; exact H.
    + intros [pre [post H]]; destruct pre; simpl in H.
      * exists post; exact H.
      * discriminate.
  - rewrite orb_true_iff, prefix_app, IH; split.
    + intros [[t H] | [pre [post H]]].
      * exists "", t; exact H.
      * exists (String a pre), post; simpl; now rewrite H.
    + intros [pre [post H]]; destruct pre as [|b pre]; simpl in H.
      * left; exists post; exact H.
      * right; exists pre, post; congruence.
Qed.

Lemma startswith_api_not_root (p : string) :
  startswith p "/api/" = true -> String.eqb p "/" = false.
Proof.
  unfold startswith; intros H.
  apply prefix_app in H; destruct H as [t ->]; reflexivity.
Qed.

Lemma startswith_socketio_not_root (p : string) :
  startswith p "/socket.io/" = true -> String.eqb p "/" = false.
Proof.
  unfold startswith; intros H.
  apply prefix_app in H; destruct H as [t ->]; reflexivity.
Qed.

Lemma startswith_socketio_not_api (p : string) :
  startswith p "/socket.io/" = true -> startswith p "/api/" = false.
Proof.
  unfold startswith; intros H.
  apply prefix_app in H; destruct H as [t ->]; reflexivity.
Qed.

End StringFacts.

(** ** The request handler *)

Section HandlerFacts.

Import Http CustomHTTPRequestHandler Contract.

Variables (version_string date_time_string : string).
Variable super_do_GET : string -> list call.

Abbreviation respond := (respond version_string date_time_string super_do_GET).
Abbreviation do_GET := (do_GET version_string date_time_string super_do_GET).
Abbreviation mock_headers := (mock_headers version_string date_time_string).

Lemma blocks_app (w1 w2 : list chunk) :
  blocks (w1 ++ w2) = (blocks w1 ++ blocks w2)%list.
Proof. apply flat_map_app. Qed.

Lemma respond_api (p : string) :
  Py.startswith p "/api/" = true ->
  respond p =
    [Head (StatusLine 200 :: mock_headers "application/json");
     Data (Py.encode (mock_data p))].
Proof.
  intros H. unfold CustomHTTPRequestHandler.respond,
    CustomHTTPRequestHandler.do_GET, request; cbn [path].
  rewrite (startswith_api_not_root _ H); cbn [path]. rewrite H. reflexivity.
Qed.

Lemma respond_socketio (p : string) :
  Py.startswith p "/socket.io/" = true ->
  respond p =
    [Head (StatusLine 200 :: mock_headers "application/javascript");
     Data (Py.encode mock_socketio)].
Proof.
  intros H. unfold CustomHTTPRequestHandler.respond,
    CustomHTTPRequestHandler.do_GET, request; cbn [path].
  rewrite (startswith_socketio_not_root _ H); cbn [path].
  rewrite (startswith_socketio_not_api _ H), H. reflexivity.
Qed.

Lemma answers_mock (ctype : string) (b : list byte) :
  answers [Head (StatusLine 200 :: mock_headers ctype); Data b]
    200 ctype b.
Proof.
  eexists; repeat split; cbn; try reflexivity.
  apply app_nil_r.
Qed.

(** The [if]/[elif] chain is the first-match dispatch over [api_table]. *)
Lemma mock_data_first_match (p : string) :
  mock_data p = first_match api_table unavailable_json p.
Proof.
  unfold mock_data; cbn [first_match api_table].
  repeat match goal with |- context [Py.contains ?k p] =>
    destruct (Py.contains k p) end; reflexivity.
Qed.

(** In a first-match dispatch the entry whose key occurs in the path, and
    before which no key occurs, gives the result. *)
Lemma first_match_split (pre post : list (string * string))
    (k b default p : string) :
  Py.contains k p = true ->
  (forall k' b', In (k', b') pre -> Py.contains k' p = false) ->
  first_match (pre ++ (k, b) :: post) default p = b.
Proof.
  intros Hk. induction pre as [|[k0 b0] pre IH]; intros Hpre; cbn.
  - now rewrite Hk.
  - rewrite (Hpre k0 b0) by now left.
    apply IH. intros k' b' Hin. apply (Hpre k' b'). now right.
Qed.

Lemma first_match_in (table : list (string * string)) (default p : string) :
  In (first_match table default p) (default :: map snd table).
Proof.
  induction table as [|[k b] table IH]; cbn.
  - now left.
  - destruct (Py.contains k p).
    + right; now left.
    + destruct IH as [IH | IH]; [now left | right; now right].
Qed.

(** C1 (as amended): a GET whose path begins with "/api/", contains
    "/api/hardware" and does not contain "/api/csv/sessions" is answered with
    status 200, content type application/json and exactly the hardware
    body. *)
Theorem hardware_request (p : string) :
  Py.startswith p "/api/" = true ->
  Py.contains "/api/hardware" p = true ->
  Py.contains "/api/csv/sessions" p = false ->
  answers (respond p) 200 "application/json" (Py.encode hardware_json).
Proof.
  intros Hapi Hhw Hcsv. rewrite (respond_api _ Hapi).
  unfold mock_data. rewrite Hcsv, Hhw. apply answers_mock.
Qed.

(** C2: a GET whose path begins with "/api/" and contains none of the four
    known sub-paths is answered with status 200, content type
    application/json and exactly the failure body. *)
Theorem unknown_api_request (p : string) :
  Py.startswith p "/api/" = true ->
  Py.contains "/api/csv/sessions" p = false ->
  Py.contains "/api/hardware" p = false ->
  Py.contains "/api/machines" p = false ->
  Py.contains "/api/schedule" p = false ->
  answers (respond p) 200 "application/json" (Py.encode unavailable_json).
Proof.
  intros Hapi H1 H2 H3 H4. rewrite (respond_api _ Hapi).
  unfold mock_data. rewrite H1, H2, H3, H4. apply answers_mock.
Qed.

(** C9: for a path that begins with "/api/" the body is chosen by an ordered
    first match over "/api/csv/sessions", "/api/hardware", "/api/machines",
    "/api/schedule": the response carries the body of the first key of that
    sequence that occurs in the path, whatever later keys occur too, and the
    body is one of the five literals. *)
Theorem api_dispatch_first_match (p : string) :
  Py.startswith p "/api/" = true ->
  map fst api_table =
    ["/api/csv/sessions"; "/api/hardware"; "/api/machines"; "/api/schedule"]
  /\ answers (respond p) 200 "application/json"
       (Py.encode (first_match api_table unavailable_json p))
  /\ mock_data p = first_match api_table unavailable_json p
  /\ (forall pre k b post,
        api_table = (pre ++ (k, b) :: post)%list ->
        Py.contains k p = true ->
        (forall k' b', In (k', b') pre -> Py.contains k' p = false) ->
        mock_data p = b)
  /\ In (mock_data p)
       [sessions_json; hardware_json; machines_json; schedule_json;
        unavailable_json].
Proof.
  intros Hapi. split; [reflexivity|]. split; [|split; [|split]].
  - rewrite (respond_api _ Hapi), mock_data_first_match. apply answers_mock.
  - apply mock_data_first_match.
  - intros pre k b post Htab Hk Hpre.
    rewrite mock_data_first_match, Htab. now apply first_match_split.
  - rewrite mock_data_first_match.
    pose proof (first_match_in api_table unavailable_json p) as H.
    cbn [map snd api_table] in H. cbn [In] in *. intuition.
Qed.

(** *** The cache headers on every header block *)

Lemma wfile_end_headers (h : handler) :
  wfile (end_headers h) =
    (wfile h ++ [Head (headers_buffer h ++ no_cache)])%list.
Proof.
  unfold end_headers, Http.end_headers, send_header, buffer; cbn.
  now rewrite <- !app_assoc.
Qed.

Lemma end_headers_all_carry (h : handler) :
  all_carry h -> all_carry (end_headers h).
Proof.
  unfold all_carry. intros H.
  rewrite wfile_end_headers, blocks_app. apply Forall_app; split; [exact H|].
  cbn. constructor; [|constructor].
  unfold carries. apply incl_appr, incl_refl.
Qed.

Lemma send_header_wfile (k v : string) (h : handler) :
  wfile (send_header k v h) = wfile h.
Proof. reflexivity. Qed.

Lemma send_response_wfile (code : Z) (h : handler) :
  wfile (send_response version_string date_time_string code h) = wfile h.
Proof. reflexivity. Qed.

Lemma write_all_carry (data : list byte) (h : handler) :
  all_carry h -> all_carry (write data h).
Proof.
  unfold all_carry, write; cbn [wfile]. intros H.
  rewrite blocks_app; cbn. now rewrite app_nil_r.
Qed.

Lemma perform_all_carry (c : call) (h : handler) :
  all_carry h ->
  all_carry (perform version_string date_time_string end_headers c h).
Proof.
  destruct c; cbn [perform]; intros H.
  - exact H.
  - exact H.
  - now apply end_headers_all_carry.
  - now apply write_all_carry.
Qed.

(** Whatever the static server does, it reaches the stream through the
    handler's own [end_headers]. *)
Lemma run_all_carry (cs : list call) (h : handler) :
  all_carry h ->
  all_carry (run version_string date_time_string end_headers cs h).
Proof.
  revert h. induction cs as [|c cs IH]; intros h H; cbn.
  - exact H.
  - apply IH. now apply perform_all_carry.
Qed.

Lemma handle_api_request_all_carry (h : handler) :
  all_carry h ->
  all_carry (handle_api_request version_string date_time_string h).
Proof.
  intros H. unfold handle_api_request.
  apply write_all_carry, end_headers_all_carry. exact H.
Qed.

Lemma send_mock_socketio_all_carry (h : handler) :
  all_carry h ->
  all_carry (send_mock_socketio version_string date_time_string h).
Proof.
  intros H. unfold send_mock_socketio.
  apply write_all_carry, end_headers_all_carry. exact H.
Qed.

Lemma do_GET_all_carry (h : handler) :
  all_carry h -> all_carry (do_GET h).
Proof.
  intros H. unfold CustomHTTPRequestHandler.do_GET.
  set (h' := if String.eqb (path h) "/" then set_path "/index.html" h else h).
  assert (H' : all_carry h') by (subst h'; destruct (String.eqb _ _); exact H).
  clearbody h'. cbv zeta.
  destruct (Py.startswith (path h') "/api/").
  - now apply handle_api_request_all_carry.
  - destruct (Py.startswith (path h') "/socket.io/").
    + now apply send_mock_socketio_all_carry.
    + now apply run_all_carry.
Qed.

(** C3: every header block the handler sends for a GET, on the API branch,
    the socket.io branch and the branch delegated to the static server
    alike, holds the headers Cache-Control: no-cache, no-store,
    must-revalidate; Pragma: no-cache; Expires: 0. *)
Theorem no_cache_on_every_response (p : string) (b : list header_line) :
  In b (blocks (respond p)) ->
  In (HeaderLine "Cache-Control" "no-cache, no-store, must-revalidate") b
  /\ In (HeaderLine "Pragma" "no-cache") b
  /\ In (HeaderLine "Expires" "0") b.
Proof.
  intros Hb.
  assert (H : all_carry (do_GET (request p)))
    by (apply do_GET_all_carry; constructor).
  unfold all_carry in H. rewrite Forall_forall in H.
  specialize (H b Hb). unfold carries, no_cache in H.
  repeat split; apply H; cbn; auto.
Qed.

(** C4: a GET of "/" is handled as a GET of "/index.html": the path is
    rewritten before the dispatch on prefixes, so the handler ends in the
    same state and the same response is on the wire. *)
Theorem root_is_index_html :
  (forall hb w,
     do_GET (mkHandler "/" hb w) = do_GET (mkHandler "/index.html" hb w))
  /\ respond "/" = respond "/index.html"
  /\ respond "/" =
       wfile (run version_string date_time_string end_headers
                (super_do_GET "/index.html") (request "/index.html")).
Proof.
  repeat split.
Qed.

(** C5: a GET whose path begins with "/socket.io/" is answered with status
    200, content type application/javascript and the fixed stub, which
    defines window.io with the members on and emit; the response is the
    same for every such path. *)
Theorem socketio_request (p : string) :
  Py.startswith p "/socket.io/" = true ->
  answers (respond p) 200 "application/javascript" (Py.encode mock_socketio)
  /\ respond p = respond "/socket.io/"
  /\ Py.contains "window.io = function() {" mock_socketio = true
  /\ Py.contains "on: function(event, callback) {" mock_socketio = true
  /\ Py.contains "emit: function(event, data) {" mock_socketio = true.
Proof.
  intros H. rewrite (respond_socketio _ H).
  split; [apply answers_mock|]. repeat split.
Qed.

End HandlerFacts.

(** ** The server life cycle *)

Section ServerFacts.

Import Server.

(** The builtin [int]: any function from strings to a number or a
    [ValueError]. *)
Variable int : string -> option Z.

Abbreviation port_of_argv := (port_of_argv int).
Abbreviation main := (main int).

Lemma start_server_begins_with_bind (port : Z) (w : world) :
  hd_error (fst (start_server port w)) = Some (Bind port).
Proof.
  unfold start_server.
  destruct (bind w port) as [e|].
  - destruct (handle port e); reflexivity.
  - destruct (serve w) as [e|]; [destruct (handle port e)|]; reflexivity.
Qed.

Lemma main_with_port (argv : list string) (port : Z) (w : world) :
  port_of_argv argv = Some port -> main argv w = start_server port w.
Proof. unfold Server.main; now intros ->. Qed.

(** X10: when bind fails with error number 48 both lines are printed, the
    conflict with the port that was tried and the fixed hint at port 3001;
    nothing else is done and the function returns. *)
Lemma start_server_errno_48 (port : Z) (w : world) (strerror : string) :
  bind w port = Some (OSError 48 strerror) ->
  start_server port w =
    ([Bind port;
      Print ("❌ Port " ++ Py.str_of_int port ++ " is already in use");
      Print "💡 Try a different port: python3 simple_server.py 3001"],
     Returned).
Proof. unfold start_server; now intros ->. Qed.

(** Every [OSError] and every [KeyboardInterrupt] is caught. *)
Lemma handle_catches (port : Z) (e : exception) :
  match e with
  | OSError _ _ | KeyboardInterrupt => snd (handle port e) = Returned
  | _ => snd (handle port e) = Raised e
  end.
Proof. destruct e; cbn; try reflexivity. now destruct (errno =? 48). Qed.

(** C6 (the code at the failing input): on a system where the error number
    of address-in-use is 98, a bind that fails because port 3000 is taken is
    caught and reported with the general message only; no line suggests
    another port. *)
Theorem port_in_use_errno_98 :
  bind (Sample.world_of Linux [3000]) 3000 =
    Some (OSError (EADDRINUSE Linux) "Address already in use")
  /\ start_server 3000 (Sample.world_of Linux [3000]) =
       ([Bind 3000;
         Print "❌ Error starting server: [Errno 98] Address already in use"],
        Returned)
  /\ ~ In "💡 Try a different port: python3 simple_server.py 3001"
         (stdout (fst (start_server 3000 (Sample.world_of Linux [3000])))).
Proof.
  split; [reflexivity|]. split; [reflexivity|].
  cbn. intros [H | []]. discriminate H.
Qed.

(** C7: without a command-line argument the server is started on port
    3000; with one argument that [int] reads as [port], on [port].  The
    first thing the program does is bind that port. *)
Theorem port_from_command_line :
  (forall prog w,
     main [prog] w = start_server 3000 w
     /\ hd_error (fst (main [prog] w)) = Some (Bind 3000))
  /\ (forall prog a port w,
        int a = Some port ->
        main [prog; a] w = start_server port w
        /\ hd_error (fst (main [prog; a] w)) = Some (Bind port)).
Proof.
  split.
  - intros prog w. split; [reflexivity|].
    apply (start_server_begins_with_bind 3000 w).
  - intros prog a port w Hint.
    assert (Hm : main [prog; a] w = start_server port w)
      by (apply main_with_port; exact Hint).
    split; [exact Hm|]. rewrite Hm. apply start_server_begins_with_bind.
Qed.


(** C10: when an argument is given and [int] rejects it, the program ends
    with the [ValueError] unhandled and has performed nothing before: no
    socket is bound, nothing is printed. *)
Theorem invalid_port_argument (prog a : string) (rest : list string)
    (w : world) :
  int a = None ->
  main (prog :: a :: rest) w = ([], Raised ValueError)
  /\ (forall port, ~ In (Bind port) (fst (main (prog :: a :: rest) w))).
Proof.
  intros Hint.
  assert (Hm : main (prog :: a :: rest) w = ([], Raised ValueError)).
  { unfold Server.main, Server.port_of_argv. cbn [nth].
    replace (1 <? Z.of_nat (List.length (prog :: a :: rest))) with true.
    - now rewrite Hint.
    - symmetry. apply Z.ltb_lt. cbn [List.length]. lia. }
  split; [exact Hm|].
  intros port. rewrite Hm. intros [].
Qed.

End ServerFacts.

(** ** The properties at concrete requests and runs *)

Section Instances.

Import Http CustomHTTPRequestHandler Contract Server.

Abbreviation respond_sample :=
  (respond Sample.version Sample.date Sample.not_found).

(** A path that begins with "/api/" and contains "/api/hardware" is not
    always answered with the hardware body: when "/api/csv/sessions" occurs
    in it too, the sessions body is sent. *)
Lemma hardware_request_shadowed :
  Py.startswith "/api/csv/sessions?next=/api/hardware" "/api/" = true
  /\ Py.contains "/api/hardware" "/api/csv/sessions?next=/api/hardware" = true
  /\ answers (respond_sample "/api/csv/sessions?next=/api/hardware")
       200 "application/json" (Py.encode sessions_json)
  /\ ~ answers (respond_sample "/api/csv/sessions?next=/api/hardware")
         200 "application/json" (Py.encode hardware_json).
Proof.
  split; [reflexivity|]. split; [reflexivity|]. split.
  - eexists; repeat split.
  - intros [r [Hr [_ [_ Hb]]]].
    vm_compute in Hr. injection Hr as <-. vm_compute in Hb. discriminate Hb.
Qed.

Lemma hardware_request_witness :
  Py.startswith "/api/hardware" "/api/" = true
  /\ answers (respond_sample "/api/hardware")
       200 "application/json" (Py.encode hardware_json).
Proof.
  split; [reflexivity|].
  apply (hardware_request Sample.version Sample.date Sample.not_found
           "/api/hardware"); reflexivity.
Defined.

Lemma unknown_api_request_witness :
  Py.startswith "/api/unknown-thing" "/api/" = true
  /\ answers (respond_sample "/api/unknown-thing")
       200 "application/json" (Py.encode unavailable_json).
Proof.
  split; [reflexivity|].
  apply (unknown_api_request Sample.version Sample.date Sample.not_found
           "/api/unknown-thing"); reflexivity.
Defined.

Lemma api_dispatch_first_match_witness :
  Py.startswith "/api/schedule/api/machines" "/api/" = true
  /\ answers (respond_sample "/api/schedule/api/machines")
       200 "application/json" (Py.encode machines_json)
  /\ mock_data "/api/schedule/api/machines" = machines_json.
Proof.
  split; [reflexivity|].
  pose proof (api_dispatch_first_match Sample.version Sample.date
                Sample.not_found "/api/schedule/api/machines" eq_refl) as H.
  split.
  - exact (proj1 (proj2 H)).
  - apply (proj1 (proj2 (proj2 (proj2 H)))
             [("/api/csv/sessions", sessions_json);
              ("/api/hardware", hardware_json)]
             "/api/machines" machines_json
             [("/api/schedule", schedule_json)]).
    + reflexivity.
    + reflexivity.
    + intros k' b' [H1 | [H1 | []]]; injection H1 as <- _; reflexivity.
Defined.

Lemma no_cache_on_every_response_witness :
  In (StatusLine 404
        :: [HeaderLine "Server" Sample.version;
            HeaderLine "Date" Sample.date;
            HeaderLine "Connection" "close";
            HeaderLine "Content-Type" "text/html;charset=utf-8"]
        ++ no_cache)%list
     (blocks (respond_sample "/missing.html"))
  /\ In (HeaderLine "Expires" "0")
       (StatusLine 404
          :: [HeaderLine "Server" Sample.version;
              HeaderLine "Date" Sample.date;
              HeaderLine "Connection" "close";
              HeaderLine "Content-Type" "text/html;charset=utf-8"]
          ++ no_cache)%list.
Proof.
  split; [left; reflexivity|].
  apply (no_cache_on_every_response Sample.version Sample.date
           Sample.not_found "/missing.html").
  left; reflexivity.
Defined.

Lemma socketio_request_witness :
  Py.startswith "/socket.io/socket.io.js" "/socket.io/" = true
  /\ answers (respond_sample "/socket.io/socket.io.js")
       200 "application/javascript" (Py.encode mock_socketio).
Proof.
  split; [reflexivity|].
  apply (socketio_request Sample.version Sample.date Sample.not_found
           "/socket.io/socket.io.js"); reflexivity.
Defined.

Lemma port_from_command_line_witness :
  Sample.int "8080" = Some 8080
  /\ main Sample.int ["simple_server.py"; "8080"]
       (Sample.world_of Darwin []) =
     start_server 8080 (Sample.world_of Darwin []).
Proof.
  split; [reflexivity|].
  apply (proj2 (port_from_command_line Sample.int) "simple_server.py"
           "8080" 8080 (Sample.world_of Darwin [])); reflexivity.
Defined.


Lemma invalid_port_argument_witness :
  Sample.int "30 00" = None
  /\ main Sample.int ["simple_server.py"; "30 00"]
       (Sample.world_of Darwin []) =
     ([], Raised ValueError).
Proof.
  split; [reflexivity|].
  apply (proj1 (invalid_port_argument Sample.int "simple_server.py" "30 00"
                  [] (Sample.world_of Darwin []) eq_refl)).
Defined.

End Instances.

(** ** More on the request handler *)

Section HandlerMore.

Import Http CustomHTTPRequestHandler Contract.

Variables (version_string date_time_string : string).
Variable super_do_GET : string -> list call.

Abbreviation respond' := (respond version_string date_time_string super_do_GET).
Abbreviation do_GET' := (do_GET version_string date_time_string super_do_GET).
Abbreviation run_base :=
  (run version_string date_time_string Http.end_headers).
Abbreviation run_self :=
  (run version_string date_time_string end_headers).

(** One call on the handler against the same call on the base class: the
    buffers stay equal, the streams stay related by [with_no_cache]. *)
Lemma perform_override (c : call) (h1 h2 : handler) :
  headers_buffer h1 = headers_buffer h2 ->
  wfile h1 = map with_no_cache (wfile h2) ->
  headers_buffer (perform version_string date_time_string end_headers c h1) =
    headers_buffer
      (perform version_string date_time_string Http.end_headers c h2)
  /\ wfile (perform version_string date_time_string end_headers c h1) =
       map with_no_cache
         (wfile (perform version_string date_time_string
                   Http.end_headers c h2)).
Proof.
  intros Hb Hw. destruct c; cbn [perform].
  - cbn. now rewrite Hb, Hw.
  - cbn. now rewrite Hb, Hw.
  - split; [reflexivity|].
    rewrite wfile_end_headers. cbn [Http.end_headers wfile].
    now rewrite map_app, Hb, Hw.
  - cbn. now rewrite Hb, Hw, map_app.
Qed.

Lemma run_override (cs : list call) (h1 h2 : handler) :
  headers_buffer h1 = headers_buffer h2 ->
  wfile h1 = map with_no_cache (wfile h2) ->
  headers_buffer (run_self cs h1) = headers_buffer (run_base cs h2)
  /\ wfile (run_self cs h1) = map with_no_cache (wfile (run_base cs h2)).
Proof.
  revert h1 h2. induction cs as [|c cs IH]; intros h1 h2 Hb Hw.
  - now split.
  - cbn [run fold_left].
    destruct (perform_override c h1 h2 Hb Hw) as [Hb' Hw'].
    exact (IH _ _ Hb' Hw').
Qed.

(** X1: a GET that is neither for a mock API path nor for a socket.io path
    is answered by the static server for that path (for "/": for
    "/index.html"), and what is sent is the static server's own output with
    the three cache headers put at the end of every header block: status
    lines, the other headers, their order and the bodies are untouched. *)
Theorem static_response_with_no_cache (p p' : string) :
  p' = (if String.eqb p "/" then "/index.html" else p) ->
  Py.startswith p' "/api/" = false ->
  Py.startswith p' "/socket.io/" = false ->
  respond' p =
    map with_no_cache (wfile (run_base (super_do_GET p') (request p'))).
Proof.
  intros Hp Hapi Hsock.
  unfold CustomHTTPRequestHandler.respond, CustomHTTPRequestHandler.do_GET.
  change (path (request p)) with p.
  destruct (String.eqb p "/"); subst p'; cbv zeta;
    change (path (set_path "/index.html" (request p))) with "/index.html";
    change (path (request p)) with p;
    rewrite Hapi, Hsock.
  all: apply run_override; reflexivity.
Qed.

(** X2: the answer to a path that begins with "/api/" or with
    "/socket.io/" does not depend on the static server: whatever files the
    directory holds, the same mock response is sent. *)
Theorem mock_response_ignores_static (other : string -> list call)
    (p : string) :
  Py.startswith p "/api/" = true \/ Py.startswith p "/socket.io/" = true ->
  respond' p =
    CustomHTTPRequestHandler.respond version_string date_time_string other p.
Proof.
  intros [H | H].
  - now rewrite !(respond_api _ _ _ _ H).
  - now rewrite !(respond_socketio _ _ _ _ H).
Qed.

(** The two mock branches on any handler state: the lines left in the
    header buffer go out at the head of the block, the buffer is empty
    afterwards, and one block and one body chunk are added to the stream. *)
Lemma handle_api_request_frame (h : handler) :
  handle_api_request version_string date_time_string h =
    mkHandler (path h) []
      (wfile h ++
       [Head (headers_buffer h ++
              StatusLine 200
                :: mock_headers version_string date_time_string
                     "application/json");
        Data (Py.encode (mock_data (path h)))]).
Proof.
  unfold handle_api_request, end_headers, Http.end_headers, send_response,
    send_header, write, buffer; cbn.
  now rewrite <- !app_assoc.
Qed.

Lemma send_mock_socketio_frame (h : handler) :
  send_mock_socketio version_string date_time_string h =
    mkHandler (path h) []
      (wfile h ++
       [Head (headers_buffer h ++
              StatusLine 200
                :: mock_headers version_string date_time_string
                     "application/javascript");
        Data (Py.encode mock_socketio)]).
Proof.
  unfold send_mock_socketio, end_headers, Http.end_headers, send_response,
    send_header, write, buffer; cbn.
  now rewrite <- !app_assoc.
Qed.

(** X4: calls of [do_GET] on one handler object compose.  A mock request
    handled on a handler whose header buffer is empty leaves the buffer
    empty and adds exactly its own response to the stream, whatever was
    written before, so a second mock request on the same handler is answered
    as if it were alone. *)
Theorem mock_requests_compose (h : handler) (p1 p2 : string) :
  headers_buffer h = [] ->
  Py.startswith p1 "/api/" = true \/ Py.startswith p1 "/socket.io/" = true ->
  Py.startswith p2 "/api/" = true \/ Py.startswith p2 "/socket.io/" = true ->
  do_GET' (set_path p1 h) = mkHandler p1 [] (wfile h ++ respond' p1)
  /\ do_GET' (set_path p2 (do_GET' (set_path p1 h))) =
       mkHandler p2 [] ((wfile h ++ respond' p1) ++ respond' p2).
Proof.
  assert (Hone : forall h0 p,
    headers_buffer h0 = [] ->
    Py.startswith p "/api/" = true \/ Py.startswith p "/socket.io/" = true ->
    do_GET' (set_path p h0) = mkHandler p [] (wfile h0 ++ respond' p)).
  { intros h0 p Hb [H | H].
    - rewrite (respond_api _ _ _ _ H).
      unfold CustomHTTPRequestHandler.do_GET.
      change (path (set_path p h0)) with p.
      rewrite (startswith_api_not_root _ H). cbv zeta.
      change (path (set_path p h0)) with p. rewrite H.
      rewrite handle_api_request_frame. cbn [set_path path headers_buffer wfile].
      now rewrite Hb.
    - rewrite (respond_socketio _ _ _ _ H).
      unfold CustomHTTPRequestHandler.do_GET.
      change (path (set_path p h0)) with p.
      rewrite (startswith_socketio_not_root _ H). cbv zeta.
      change (path (set_path p h0)) with p.
      rewrite (startswith_socketio_not_api _ H), H.
      rewrite send_mock_socketio_frame.
      cbn [set_path path headers_buffer wfile]. now rewrite Hb. }
  intros Hb H1 H2. split.
  - now apply Hone.
  - rewrite (Hone h p1 Hb H1).
    apply (Hone (mkHandler p1 [] (wfile h ++ respond' p1)) p2);
      [reflexivity | exact H2].
Qed.

(** X5: the header block of a mock response is the status line 200
    followed by exactly six header lines, in this order: Server, Date,
    Content-type, Cache-Control, Pragma, Expires.  In particular no
    Content-Length and no Connection header is sent. *)
Theorem mock_response_headers (p : string) :
  Py.startswith p "/api/" = true \/ Py.startswith p "/socket.io/" = true ->
  exists r ctype,
    response_of (respond' p) = Some r
    /\ status r = 200
    /\ headers r =
         [HeaderLine "Server" version_string;
          HeaderLine "Date" date_time_string;
          HeaderLine "Content-type" ctype;
          HeaderLine "Cache-Control" "no-cache, no-store, must-revalidate";
          HeaderLine "Pragma" "no-cache";
          HeaderLine "Expires" "0"]
    /\ header "Content-Length" r = []
    /\ header "Connection" r = [].
Proof.
  intros [H | H].
  - rewrite (respond_api _ _ _ _ H).
    eexists; exists "application/json"; repeat split.
  - rewrite (respond_socketio _ _ _ _ H).
    eexists; exists "application/javascript"; repeat split.
Qed.

End HandlerMore.

(** ** More on the server life cycle *)

Section ServerMore.

Import Server.

Variable int : string -> option Z.

Abbreviation main' := (main int).

(** Membership in a list that is written out: one case for each element. *)
Ltac in_cases H :=
  cbn [In] in H;
  repeat match type of H with
         | _ \/ _ => destruct H as [H | H]
         | False => destruct H
         end.

Lemma announce_effects (port : Z) (w : world) (e : effect) :
  In e (announce port w) ->
  (exists s, e = Print s)
  \/ e = BrowserOpen ("http://localhost:" ++ Py.str_of_int port)
  \/ e = ServeForever.
Proof.
  unfold announce. intros H.
  destruct (browser w); cbn [app] in H; in_cases H; subst e; eauto.
Qed.

Lemma handle_effects (port : Z) (x : exception) (e : effect) :
  In e (fst (handle port x)) -> exists s, e = Print s.
Proof.
  destruct x as [errno strerror| | |name]; cbn [handle];
    [destruct (errno =? 48)| | |]; cbn [fst]; intros H; in_cases H;
    subst e; eauto.
Qed.

(** X6: a failure to open the browser does not stop the server.  Once the
    socket is bound the browser is asked to open the URL of the bound port
    and the serving loop is entered, whatever [webbrowser.open] raises, a
    keyboard interrupt included; the failure is only reported, by one
    line, and that line is printed in no other case. *)
Theorem browser_failure_is_ignored (port : Z) (w : world) :
  bind w port = None ->
  In (BrowserOpen ("http://localhost:" ++ Py.str_of_int port))
     (fst (start_server port w))
  /\ In ServeForever (fst (start_server port w))
  /\ (In (Print "Could not open browser automatically")
         (fst (start_server port w))
       <-> browser w <> None).
Proof.
  intros Hb.
  assert (Hann : In (BrowserOpen ("http://localhost:" ++ Py.str_of_int port))
                   (announce port w)
                 /\ In ServeForever (announce port w)
                 /\ (In (Print "Could not open browser automatically")
                        (announce port w) <-> browser w <> None)).
  { unfold announce. destruct (browser w) as [x|]; cbn [app].
    - split; [cbn; tauto|]. split; [cbn; tauto|].
      split; [intros _; discriminate | intros _; cbn; tauto].
    - split; [cbn; tauto|]. split; [cbn; tauto|].
      split; [|intros H; now elim H].
      intros H. in_cases H; discriminate H. }
  destruct Hann as [H1 [H2 H3]].
  unfold start_server. rewrite Hb.
  destruct (serve w) as [x|].
  - destruct (handle port x) as [out o] eqn:Hh. cbn [fst].
    split; [right; apply in_or_app; now left|].
    split; [right; apply in_or_app; now left|].
    rewrite <- H3. split.
    + intros [H | H]; [discriminate H|].
      apply in_app_or in H. destruct H as [H | [H | H]]; [exact H | discriminate H |].
      replace out with (fst (handle port x)) in H by now rewrite Hh.
      destruct x as [errno strerror| | |name]; cbn [handle] in H;
        [destruct (errno =? 48)| | |]; cbn [fst] in H; in_cases H;
        discriminate H.
    + intros H. right. apply in_or_app. now left.
  - cbn [fst]. split; [now right|]. split; [now right|].
    rewrite <- H3. split.
    + intros [H | H]; [discriminate H | exact H].
    + intros H. now right.
Qed.

(** X7: neither an [OSError] nor a [KeyboardInterrupt] ever leaves
    [start_server]: an exception that does was raised by the bind or by the
    serving loop and is of another class. *)
Theorem start_server_lets_through (port : Z) (w : world) (e : exception) :
  snd (start_server port w) = Raised e ->
  (bind w port = Some e \/ (bind w port = None /\ serve w = Some e))
  /\ e <> KeyboardInterrupt
  /\ (forall errno strerror, e <> OSError errno strerror).
Proof.
  unfold start_server.
  assert (Hh : forall x, snd (handle port x) = Raised e ->
                x = e /\ e <> KeyboardInterrupt
                /\ (forall errno strerror, e <> OSError errno strerror)).
  { intros x. destruct x as [errno strerror| | |name]; cbn [handle].
    - destruct (errno =? 48); discriminate.
    - discriminate.
    - cbn. intros H; injection H as <-. repeat split; discriminate.
    - cbn. intros H; injection H as <-. repeat split; discriminate. }
  destruct (bind w port) as [x|].
  - destruct (handle port x) as [out o] eqn:Hx. cbn [snd]. intros Ho.
    destruct (Hh x) as [-> H]; [now rewrite Hx|]. split; [now left | exact H].
  - destruct (serve w) as [x|].
    + destruct (handle port x) as [out o] eqn:Hx. cbn [snd]. intros Ho.
      destruct (Hh x) as [-> H]; [now rewrite Hx|].
      split; [right; now split | exact H].
    + discriminate.
Qed.

(** X8: a bind that fails with an [OSError], whatever its error number,
    ends the program quietly: one or two lines are printed, no browser is
    opened, the serving loop is never entered, and the process ends with
    exit status 0, as after a normal run. *)
Theorem bind_error_ends_with_status_0 (port : Z) (w : world)
    (errno : Z) (strerror : string) :
  bind w port = Some (OSError errno strerror) ->
  exit_status (snd (start_server port w)) = Some 0
  /\ ~ In ServeForever (fst (start_server port w))
  /\ (forall url, ~ In (BrowserOpen url) (fst (start_server port w)))
  /\ (1 <= List.length (stdout (fst (start_server port w))) <= 2)%nat.
Proof.
  intros Hb. unfold start_server. rewrite Hb. cbn [handle].
  destruct (errno =? 48); cbn; repeat split; try lia.
  - intros H; in_cases H; discriminate H.
  - intros url H; in_cases H; discriminate H.
  - intros H; in_cases H; discriminate H.
  - intros url H; in_cases H; discriminate H.
Qed.

(** X9: only the first command-line argument is looked at: further
    arguments are neither read nor rejected, the program runs as if they
    were not there. *)
Theorem only_first_argument_counts (prog a : string) (rest : list string)
    (w : world) :
  main' (prog :: a :: rest) w = main' [prog; a] w.
Proof.
  unfold Server.main, Server.port_of_argv. cbn [nth].
  replace (1 <? Z.of_nat (List.length (prog :: a :: rest))) with true
    by (symmetry; apply Z.ltb_lt; cbn [List.length]; lia).
  reflexivity.
Qed.

(** X11: the listening socket is closed by the [with] statement exactly
    when it was bound and the serving loop ended by an exception, caught or
    not; and it is closed only after the serving loop was entered. *)
Theorem socket_closed_when_serving_ends (port : Z) (w : world) :
  (In ServerClose (fst (start_server port w))
   <-> bind w port = None /\ serve w <> None)
  /\ (In ServerClose (fst (start_server port w)) ->
      exists before after,
        fst (start_server port w) = (before ++ ServerClose :: after)%list
        /\ In ServeForever before).
Proof.
  assert (Hann : ~ In ServerClose (announce port w)).
  { intros H. apply announce_effects in H.
    destruct H as [[s H] | [H | H]]; discriminate H. }
  assert (Hh : forall x, ~ In ServerClose (fst (handle port x))).
  { intros x H. apply handle_effects in H. destruct H as [s H].
    discriminate H. }
  assert (Hserve : In ServeForever (announce port w)).
  { unfold announce. apply in_or_app; right. apply in_or_app; right.
    cbn; tauto. }
  unfold start_server.
  destruct (bind w port) as [x|].
  - pose proof (Hh x) as Hx. destruct (handle port x) as [out o].
    cbn [fst] in *. split.
    + split.
      * intros [H | H]; [discriminate H | contradiction].
      * intros [H _]; discriminate H.
    + intros [H | H]; [discriminate H | contradiction].
  - destruct (serve w) as [x|].
    + pose proof (Hh x) as Hx. destruct (handle port x) as [out o].
      cbn [fst] in *. split.
      * split; [intros _; split; [reflexivity | discriminate]|].
        intros _. right. apply in_or_app; right. now left.
      * intros _. exists (Bind port :: announce port w), out.
        split; [reflexivity | now right].
    + cbn [fst]. split.
      * split.
        -- intros [H | H]; [discriminate H | contradiction].
        -- intros [_ H]; now elim H.
      * intros [H | H]; [discriminate H | contradiction].
Qed.

End ServerMore.

(** ** The further properties at concrete requests and runs *)

Section MoreInstances.

Import Http CustomHTTPRequestHandler Contract Server.

Abbreviation respond_in_sample :=
  (respond Sample.version Sample.date Sample.not_found).

Lemma static_response_with_no_cache_witness :
  Py.startswith "/index.html" "/api/" = false
  /\ Py.startswith "/index.html" "/socket.io/" = false
  /\ respond_in_sample "/" =
       map with_no_cache
         (wfile (run Sample.version Sample.date Http.end_headers
                   (Sample.not_found "/index.html") (request "/index.html"))).
Proof.
  split; [reflexivity|]. split; [reflexivity|].
  apply (static_response_with_no_cache Sample.version Sample.date
           Sample.not_found "/" "/index.html"); reflexivity.
Defined.

Lemma mock_response_ignores_static_witness :
  Py.startswith "/api/machines" "/api/" = true
  /\ respond_in_sample "/api/machines" =
       respond Sample.version Sample.date (fun _ => []) "/api/machines".
Proof.
  split; [reflexivity|].
  apply (mock_response_ignores_static Sample.version Sample.date
           Sample.not_found (fun _ => []) "/api/machines").
  left; reflexivity.
Defined.

Lemma mock_requests_compose_witness :
  headers_buffer (request "") = []
  /\ Py.startswith "/api/schedule" "/api/" = true
  /\ Py.startswith "/socket.io/?EIO=4" "/socket.io/" = true
  /\ wfile
       (do_GET Sample.version Sample.date Sample.not_found
          (set_path "/socket.io/?EIO=4"
             (do_GET Sample.version Sample.date Sample.not_found
                (set_path "/api/schedule" (request ""))))) =
     (respond_in_sample "/api/schedule"
        ++ respond_in_sample "/socket.io/?EIO=4")%list.
Proof.
  split; [reflexivity|]. split; [reflexivity|]. split; [reflexivity|].
  rewrite (proj2 (mock_requests_compose Sample.version Sample.date
                    Sample.not_found (request "")
                    "/api/schedule" "/socket.io/?EIO=4"
                    eq_refl (or_introl eq_refl) (or_intror eq_refl))).
  reflexivity.
Defined.

Lemma mock_response_headers_witness :
  Py.startswith "/socket.io/socket.io.js" "/socket.io/" = true
  /\ exists r ctype,
       response_of (respond_in_sample "/socket.io/socket.io.js") = Some r
       /\ status r = 200
       /\ headers r =
            [HeaderLine "Server" Sample.version;
             HeaderLine "Date" Sample.date;
             HeaderLine "Content-type" ctype;
             HeaderLine "Cache-Control" "no-cache, no-store, must-revalidate";
             HeaderLine "Pragma" "no-cache";
             HeaderLine "Expires" "0"]
       /\ header "Content-Length" r = []
       /\ header "Connection" r = [].
Proof.
  split; [reflexivity|].
  apply (mock_response_headers Sample.version Sample.date Sample.not_found
           "/socket.io/socket.io.js").
  right; reflexivity.
Defined.

Lemma browser_failure_is_ignored_witness :
  bind Sample.browser_interrupted 3000 = None
  /\ browser Sample.browser_interrupted = Some KeyboardInterrupt
  /\ In ServeForever (fst (start_server 3000 Sample.browser_interrupted))
  /\ In (Print "Could not open browser automatically")
        (fst (start_server 3000 Sample.browser_interrupted)).
Proof.
  split; [reflexivity|]. split; [reflexivity|].
  destruct (browser_failure_is_ignored 3000 Sample.browser_interrupted eq_refl)
    as [_ [Hserve Hline]].
  split; [exact Hserve|]. apply Hline. discriminate.
Defined.

Lemma start_server_lets_through_witness :
  snd (start_server 70000 Sample.port_rejected) = Raised (OtherError "OverflowError")
  /\ bind Sample.port_rejected 70000 = Some (OtherError "OverflowError")
  /\ OtherError "OverflowError" <> KeyboardInterrupt.
Proof.
  split; [reflexivity|]. split; [reflexivity|].
  apply (start_server_lets_through 70000 Sample.port_rejected
           (OtherError "OverflowError") eq_refl).
Defined.

Lemma bind_error_ends_with_status_0_witness :
  bind (Sample.world_of Linux [3000]) 3000 =
    Some (OSError 98 "Address already in use")
  /\ exit_status (snd (start_server 3000 (Sample.world_of Linux [3000]))) =
       Some 0.
Proof.
  split; [reflexivity|].
  apply (bind_error_ends_with_status_0 3000 (Sample.world_of Linux [3000])
           98 "Address already in use" eq_refl).
Defined.

(** On a system with error number 48 for address-in-use the hint names port
    3001 also when 3001 is the port that is taken. *)
Lemma start_server_errno_48_witness :
  bind (Sample.world_of Darwin [3001]) 3001 =
    Some (OSError 48 "Address already in use")
  /\ stdout (fst (start_server 3001 (Sample.world_of Darwin [3001]))) =
       ["❌ Port 3001 is already in use";
        "💡 Try a different port: python3 simple_server.py 3001"].
Proof.
  split; [reflexivity|].
  rewrite (start_server_errno_48 3001 (Sample.world_of Darwin [3001])
             "Address already in use" eq_refl).
  reflexivity.
Defined.

Lemma socket_closed_when_serving_ends_witness :
  (bind (Sample.world_of Darwin []) 3000 = None
   /\ serve (Sample.world_of Darwin []) <> None)
  /\ In ServerClose (fst (start_server 3000 (Sample.world_of Darwin []))).
Proof.
  assert (H : bind (Sample.world_of Darwin []) 3000 = None
              /\ serve (Sample.world_of Darwin []) <> None)
    by (split; [reflexivity | discriminate]).
  split; [exact H|].
  apply (proj2 (proj1 (socket_closed_when_serving_ends 3000
                         (Sample.world_of Darwin []))) H).
Defined.

End MoreInstances.
